(** * Accessibility help and accessible-view contributions

    A shallow embedding of
    [src/vs/workbench/contrib/accessibility/browser/accessibility.contribution.ts]:
    the [AccessibilityHelpProvider] class, the two workbench contributions
    that register an implementation on [AccessibilityHelpAction] and on
    [AccessibilityViewAction], and the properties of their content and of
    the calls they make on the accessible-view service. *)

From Stdlib Require Import String Ascii ZArith Lia.
From stdpp Require Import gmap strings list fin_maps.

Local Open Scope string_scope.

(** ** JavaScript values used by the file *)

Module Js.

(** The line separator passed to [Array.prototype.join]. *)
Definition newline : string := String (ascii_of_nat 10) EmptyString.

(** [a.push(x1, ..., xn)] on an array held in a local variable: the
    elements are appended in argument order. *)
Definition push (a : list string) (xs : list string) : list string := a ++ xs.

(** [a.join(sep)] on an array of strings. *)
Definition join (sep : string) (a : list string) : string := String.concat sep a.

(** [x || y] on values that are an object or [null]/[undefined]. *)
Definition or {A} (x y : option A) : option A :=
  match x with
  | Some v => Some v
  | None => y
  end.

(** Truthiness of a [string | undefined]: [undefined] and the empty string
    are falsy. *)
Definition truthy (s : option string) : bool :=
  match s with
  | None => false
  | Some EmptyString => false
  | Some (String _ _) => true
  end.

(** Number of occurrences of the separator character in a string. *)
Fixpoint count_newlines (s : string) : nat :=
  match s with
  | EmptyString => 0
  | String c r =>
      (if Ascii.eqb c (ascii_of_nat 10) then 1 else 0) + count_newlines r
  end.

(** Number of lines of a text: one more than its line separators. *)
Definition line_count (s : string) : nat := S (count_newlines s).

End Js.

(** ** The editor surface *)

(** [AccessibilitySupport] of [vs/platform/accessibility/common/accessibility]. *)
Inductive AccessibilitySupport := Unknown | Disabled | Enabled.

(** The four computed editor options that [provideContent] reads through
    [options.get(EditorOption.x)]. *)
Record EditorOptions := {
  inDiffEditor : bool;
  readOnly : bool;
  accessibilitySupport : AccessibilitySupport;
  tabFocusMode : bool
}.

(** The one raw option the constructor reads, [undefined] when not set. *)
Record RawOptions := { accessibilityHelpUrl : option string }.

(** Editors and hover controllers are objects; they are identified here by
    a number and their current state is looked up in the [World]. *)
Definition ICodeEditor := nat.
Definition ModesHoverController := nat.

(** A resolved keybinding, of which only the aria label is used; the label
    that [getAriaLabel()] returns is taken to be a string. *)
Record ResolvedKeybinding := { getAriaLabel : string }.

(** The state of the workbench that the file observes through its services:
    [ICodeEditorService], the editors' options, the hover controller of an
    editor with the contents of its widget, and [IKeybindingService]. *)
Record World := {
  getActiveCodeEditor : option ICodeEditor;
  getFocusedCodeEditor : option ICodeEditor;
  getOptions : ICodeEditor -> EditorOptions;
  getRawOptions : ICodeEditor -> RawOptions;
  ModesHoverController_get : ICodeEditor -> option ModesHoverController;
  getWidgetContents : ModesHoverController -> option string;
  lookupKeybinding : string -> option ResolvedKeybinding
}.

(** ** Imported names

    The message table [AccessibilityHelpNLS] and the other names that the
    file imports are defined in other modules of the workbench.  They are
    taken as parameters. *)

Record AccessibilityHelpNLS := {
  accessibilityHelpTitle : string;
  readonlyDiffEditor : string;
  editableDiffEditor : string;
  readonlyEditor : string;
  editableEditor : string;
  changeConfigToOnMac : string;
  changeConfigToOnWinLinux : string;
  auto_on : string;
  auto_off : string;
  tabFocusModeOnMsg : string;
  tabFocusModeOnMsgNoKb : string;
  tabFocusModeOffMsg : string;
  tabFocusModeOffMsgNoKb : string
}.

Class Workbench := {
  (** [AccessibilityHelpNLS] of [vs/editor/common/standaloneStrings] *)
  nls : AccessibilityHelpNLS;
  (** [strings.format(value, arg)] with one argument *)
  strings_format : string -> string -> string;
  (** [localize(key, message)] of [vs/nls] *)
  localize : string -> string -> string;
  (** [platform.isMacintosh] *)
  isMacintosh : bool;
  (** [ToggleTabFocusModeAction.ID] *)
  ToggleTabFocusModeAction_ID : string;
  (** [NEW_UNTITLED_FILE_COMMAND_ID] *)
  NEW_UNTITLED_FILE_COMMAND_ID : string;
  (** [commandService.executeCommand(id)] awaited: the workbench after the
      command has run, or [None] when the returned promise rejects. *)
  executeCommand : string -> World -> option World
}.

(** ** Content providers *)

Record IAccessibleViewOptions := {
  isHelpMenu : option bool;
  ariaLabel : string;
  readMoreUrl : option string;
  language : option string
}.

(** What an [onClose] callback does, in the order it does it. *)
Inductive CloseStep :=
| FocusEditor (e : ICodeEditor)
| FocusHover (c : ModesHoverController)
| DisposeProvider
| DisposeRegistration.

(** [IAccessibleContentProvider].  [provideContent] is a method or closure
    of an object: what it returns may depend on the state of the workbench
    at the time of the call. *)
Record IAccessibleContentProvider := {
  id : string;
  provideContent : World -> string;
  options : IAccessibleViewOptions;
  onClose : list CloseStep
}.

Section AccessibilityHelpProvider.

Context `{wb : Workbench}.

(** Lines 44-48: the value stored in [this.options.readMoreUrl]. *)
Definition helpUrl (raw : RawOptions) : option string :=
  let url := accessibilityHelpUrl raw in
  let url :=
    match url with
    | None => Some "https://go.microsoft.com/fwlink/?linkid=852450"
    | Some _ => url
    end in
  url.

(** [_descriptionForCommand], lines 51-57. *)
Definition _descriptionForCommand (w : World) (commandId msg noKbMsg : string)
  : string :=
  let kb := lookupKeybinding w commandId in
  match kb with
  | Some k => strings_format msg (getAriaLabel k)
  | None => strings_format noKbMsg commandId
  end.

(** The array [content] of [provideContent] just before the [join] of
    line 100, built by the pushes of lines 62-99. *)
Definition provideContent_lines (w : World) (_editor : ICodeEditor)
  : list string :=
  let options := getOptions w _editor in
  let content := [] in
  let content := Js.push content [accessibilityHelpTitle nls] in
  let content :=
    if inDiffEditor options then
      if readOnly options then Js.push content [readonlyDiffEditor nls]
      else Js.push content [editableDiffEditor nls]
    else
      if readOnly options then Js.push content [readonlyEditor nls]
      else Js.push content [editableEditor nls] in
  let turnOnMessage :=
    if isMacintosh then changeConfigToOnMac nls
    else changeConfigToOnWinLinux nls in
  let content :=
    match accessibilitySupport options with
    | Unknown => Js.push content [turnOnMessage]
    | Enabled => Js.push content [auto_on nls]
    | Disabled => Js.push content [auto_off nls; turnOnMessage]
    end in
  let content :=
    if tabFocusMode options then
      Js.push content
        [_descriptionForCommand w ToggleTabFocusModeAction_ID
           (tabFocusModeOnMsg nls) (tabFocusModeOnMsgNoKb nls)]
    else
      Js.push content
        [_descriptionForCommand w ToggleTabFocusModeAction_ID
           (tabFocusModeOffMsg nls) (tabFocusModeOffMsgNoKb nls)] in
  content.

(** [AccessibilityHelpProvider.provideContent], lines 59-101. *)
Definition AccessibilityHelpProvider_provideContent
    (_editor : ICodeEditor) (w : World) : string :=
  Js.join Js.newline (provideContent_lines w _editor).

(** [new AccessibilityHelpProvider(_editor, keybindingService)] in the
    workbench [w]: the field initialisers of lines 37-38 followed by the
    constructor body. *)
Definition AccessibilityHelpProvider (w : World) (_editor : ICodeEditor)
  : IAccessibleContentProvider :=
  let options :=
    {| isHelpMenu := Some true;
       ariaLabel := localize "terminal-help-label" "terminal accessibility help";
       readMoreUrl := None;
       language := None |} in
  let url := helpUrl (getRawOptions w _editor) in
  let options :=
    {| isHelpMenu := isHelpMenu options;
       ariaLabel := ariaLabel options;
       readMoreUrl := url;
       language := language options |} in
  {| id := "editor";
     provideContent := AccessibilityHelpProvider_provideContent _editor;
     options := options;
     onClose := [FocusEditor _editor; DisposeProvider] |}.

End AccessibilityHelpProvider.

(** ** Handlers and the calls they make *)

(** The calls on [ICommandService] and [IAccessibleViewService] that a
    handler makes, recorded in the order they are made. *)
Inductive Call :=
| CallExecuteCommand (commandId : string)
| CallRegisterProvider (p : IAccessibleContentProvider)
| CallShow (providerId : string).

Inductive JsError :=
| TypeError        (* a property read on [undefined] *)
| CommandRejected. (* the promise of [executeCommand] rejected *)

Inductive Completion (A : Type) :=
| Normal (a : A)
| Throw (e : JsError).
Arguments Normal {A} a.
Arguments Throw {A} e.

Record St := { world : World; calls : list Call }.

(** A computation that reads and changes the workbench, logs its service
    calls, and either completes or throws. *)
Definition M (A : Type) : Type := St -> Completion A * St.

#[export] Instance M_ret : MRet M := fun A a s => (Normal a, s).

#[export] Instance M_bind : MBind M := fun A B f m s =>
  match m s with
  | (Normal a, s') => f a s'
  | (Throw e, s') => (Throw e, s')
  end.

Definition throw {A} (e : JsError) : M A := fun s => (Throw e, s).

Definition read {A} (f : World -> A) : M A := fun s => (Normal (f (world s)), s).

Definition log (c : Call) : M unit := fun s =>
  (Normal tt, {| world := world s; calls := calls s ++ [c] |}).

(** What a handler passed to [addImplementation] evaluates to. *)
Inductive Settled :=
| Fulfilled (v : option bool) (* [Some b]: the boolean [b]; [None]: [undefined] *)
| Rejected (e : JsError).

Inductive HandlerResult :=
| Returns (b : bool)
| Throws (e : JsError)
| Promise (p : Settled).

Definition Handler : Type := St -> HandlerResult * St.

(** An arrow function whose body returns a boolean. *)
Definition sync (body : M bool) : Handler := fun s =>
  match body s with
  | (Normal b, s') => (Returns b, s')
  | (Throw e, s') => (Throws e, s')
  end.

(** An [async] arrow function whose body has no [return] statement: the
    promise is fulfilled with [undefined] when the body completes and is
    rejected when it throws. *)
Definition async (body : M unit) : Handler := fun s =>
  match body s with
  | (Normal _, s') => (Promise (Fulfilled None), s')
  | (Throw e, s') => (Promise (Rejected e), s')
  end.

(** A handler started in a workbench with an empty call log. *)
Definition run (h : Handler) (w : World) : HandlerResult * St :=
  h {| world := w; calls := [] |}.

Section Contributions.

Context `{wb : Workbench}.

Definition codeEditorService_getActiveCodeEditor : M (option ICodeEditor) :=
  read getActiveCodeEditor.

Definition codeEditorService_getFocusedCodeEditor : M (option ICodeEditor) :=
  read getFocusedCodeEditor.

(** [await commandService.executeCommand(id)] *)
Definition commandService_executeCommand (commandId : string) : M unit :=
  fun s =>
    let s1 := {| world := world s; calls := calls s ++ [CallExecuteCommand commandId] |} in
    match executeCommand commandId (world s) with
    | Some w' => (Normal tt, {| world := w'; calls := calls s1 |})
    | None => (Throw CommandRejected, s1)
    end.

(** [instantiationService.createInstance(AccessibilityHelpProvider, codeEditor)].
    The constructor reads [this._editor.getRawOptions()], which throws
    when [codeEditor] is [undefined]. *)
Definition createInstance_AccessibilityHelpProvider
    (codeEditor : option ICodeEditor) : M IAccessibleContentProvider :=
  match codeEditor with
  | Some e => read (fun w => AccessibilityHelpProvider w e)
  | None => throw TypeError
  end.

Definition accessibleViewService_registerProvider
    (p : IAccessibleContentProvider) : M unit :=
  log (CallRegisterProvider p).

Definition accessibleViewService_show (providerId : string) : M unit :=
  log (CallShow providerId).

(** The value of [getActiveCodeEditor() || getFocusedCodeEditor()], the
    editor on which both implementations act. *)
Definition currentEditor (w : World) : option ICodeEditor :=
  Js.or (getActiveCodeEditor w) (getFocusedCodeEditor w).

(** The implementation that [EditorAccessibilityHelpContribution] adds to
    [AccessibilityHelpAction], lines 108-120. *)
Definition editorHelpBody : M unit :=
  active ← codeEditorService_getActiveCodeEditor;
  codeEditor ←
    match active with
    | Some e => mret (Some e)
    | None => codeEditorService_getFocusedCodeEditor
    end;
  codeEditor ←
    match codeEditor with
    | Some e => mret (Some e)
    | None =>
        commandService_executeCommand NEW_UNTITLED_FILE_COMMAND_ID;;
        codeEditorService_getActiveCodeEditor
    end;
  provider ← createInstance_AccessibilityHelpProvider codeEditor;
  accessibleViewService_registerProvider provider;;
  accessibleViewService_show "editor".

Definition editorHelpHandler : Handler := async editorHelpBody.

(** The provider object literal of lines 148-156; [hoverContent] is the
    constant captured by the closure [provideContent]. *)
Definition hoverProvider (controller : ModesHoverController)
    (hoverContent : string) : IAccessibleContentProvider :=
  {| id := "hover";
     provideContent := fun _ => hoverContent;
     onClose := [DisposeRegistration; FocusHover controller];
     options :=
       {| isHelpMenu := None;
          ariaLabel := localize "hoverAccessibleView" "Hover Accessible View";
          readMoreUrl := None;
          language := Some "typescript" |} |}.

(** The implementation that [HoverAccessibileViewContribution] adds to
    [AccessibilityViewAction], lines 133-159. *)
Definition hoverBody : M bool :=
  active ← codeEditorService_getActiveCodeEditor;
  editor ←
    match active with
    | Some e => mret (Some e)
    | None => codeEditorService_getFocusedCodeEditor
    end;
  match editor with
  | None => mret false
  | Some editor =>
      controller ← read (fun w => ModesHoverController_get w editor);
      hoverContent ←
        match controller with
        | Some c => read (fun w => getWidgetContents w c)
        | None => mret None
        end;
      match controller, hoverContent with
      | Some controller, Some text =>
          if Js.truthy hoverContent then
            accessibleViewService_registerProvider (hoverProvider controller text);;
            accessibleViewService_show "hover";;
            mret true
          else mret false
      | _, _ => mret false
      end
  end.

Definition hoverHandler : Handler := sync hoverBody.

End Contributions.

(** ** The action that dispatches to the implementations *)

Module PrioritizedAction.

Record ActionImplementation := {
  priority : Z;
  surfaceId : string;
  handler : Handler
}.

(** Modelled from the spec: [addImplementation] of [AccessibilityHelpAction]
    and [AccessibilityViewAction], which are imported from
    [accessibilityContribution].  The implementations are kept sorted by
    descending priority; among equal priorities the one registered
    earlier comes first. *)
Fixpoint addImplementation (i : ActionImplementation)
    (implementations : list ActionImplementation) : list ActionImplementation :=
  match implementations with
  | [] => [i]
  | j :: rest =>
      if (priority j <? priority i)%Z then i :: j :: rest
      else j :: addImplementation i rest
  end.

(** Modelled from the spec: how [invoke] reads the outcome of one handler.
    Only a result that returns or resolves [true] counts as handled; a
    handler that throws or whose promise rejects is treated as [false]. *)
Definition handled (r : HandlerResult) : bool :=
  match r with
  | Returns b => b
  | Promise (Fulfilled (Some b)) => b
  | Promise (Fulfilled None) => false
  | Throws _ => false
  | Promise (Rejected _) => false
  end.

Record Outcome := {
  result : Completion bool;       (* what [invoke] completes with *)
  attempted : list string;        (* surface ids of the handlers called *)
  final : St
}.

(** Modelled from the spec: [invoke] of the same two actions.  It walks
    the implementations in order, stops at the first one that is
    handled, and returns [false] when none is. *)
Fixpoint invoke (implementations : list ActionImplementation) (s : St)
  : Outcome :=
  match implementations with
  | [] => {| result := Normal false; attempted := []; final := s |}
  | i :: rest =>
      let (r, s') := handler i s in
      if handled r then
        {| result := Normal true; attempted := [surfaceId i]; final := s' |}
      else
        let o := invoke rest s' in
        {| result := result o;
           attempted := surfaceId i :: attempted o;
           final := final o |}
  end.

(** A handler is faulty in a state when it throws or its promise rejects
    there. *)
Definition faulty (r : HandlerResult) : bool :=
  match r with
  | Throws _ => true
  | Promise (Rejected _) => true
  | _ => false
  end.

(** The handler that behaves as [h] but returns [false] wherever [h] is
    faulty. *)
Definition returning_false_on_fault (h : Handler) : Handler := fun s =>
  let (r, s') := h s in
  if faulty r then (Returns false, s') else (r, s').

Definition without_faults (i : ActionImplementation) : ActionImplementation :=
  {| priority := priority i;
     surfaceId := surfaceId i;
     handler := returning_false_on_fault (handler i) |}.

End PrioritizedAction.

(** ** The accessible-view service *)

Module ProviderRegistry.

Record t := {
  slots : gmap string IAccessibleContentProvider; (* the provider of each slot *)
  shown : gset string;                            (* the slots being presented *)
  closed : list IAccessibleContentProvider        (* providers that were closed *)
}.

Inductive ShowResult := Presented | NotRegistered.

(** Modelled from the spec: [registerProvider] of [AccessibleViewService],
    imported from [accessibleView].  The provider takes the slot keyed by
    its id; a provider already in that slot is closed first, and the new
    one is not yet shown. *)
Definition registerProvider (p : IAccessibleContentProvider) (r : t) : t :=
  {| slots := <[id p := p]> (slots r);
     shown := shown r ∖ {[id p]};
     closed :=
       match slots r !! id p with
       | Some old => closed r ++ [old]
       | None => closed r
       end |}.

(** Modelled from the spec: [show] of [AccessibleViewService].  It reports
    [NotRegistered] when the slot is empty and presents the provider of
    the slot otherwise. *)
Definition show (slotId : string) (r : t) : ShowResult * t :=
  match slots r !! slotId with
  | None => (NotRegistered, r)
  | Some _ =>
      (Presented,
       {| slots := slots r; shown := shown r ∪ {[slotId]}; closed := closed r |})
  end.

(** The service driven by the calls of a handler; the results of the
    [show] calls are collected in order. *)
Fixpoint replay (cs : list Call) (r : t) : list ShowResult * t :=
  match cs with
  | [] => ([], r)
  | CallExecuteCommand _ :: rest => replay rest r
  | CallRegisterProvider p :: rest => replay rest (registerProvider p r)
  | CallShow slotId :: rest =>
      let (res, r') := show slotId r in
      let (ress, r'') := replay rest r' in
      (res :: ress, r'')
  end.

End ProviderRegistry.

(** Every [show] in a call log comes directly after a [registerProvider]
    of a provider with the same id.  [prev] is the call made just before
    the log starts. *)
Fixpoint show_follows_register (prev : option Call) (cs : list Call) : bool :=
  match cs with
  | [] => true
  | c :: rest =>
      match c with
      | CallShow slotId =>
          match prev with
          | Some (CallRegisterProvider p) => String.eqb (id p) slotId
          | _ => false
          end
      | _ => true
      end && show_follows_register (Some c) rest
  end.

Definition is_register (c : Call) : bool :=
  match c with CallRegisterProvider _ => true | _ => false end.

Definition is_show (c : Call) : bool :=
  match c with CallShow _ => true | _ => false end.

(** ** Registration of the two contributions *)

Section Registration.

Context `{wb : Workbench}.

(** The constructor of [EditorAccessibilityHelpContribution], applied to
    the implementations of [AccessibilityHelpAction]. *)
Definition EditorAccessibilityHelpContribution
    (helpAction : list PrioritizedAction.ActionImplementation) :=
  PrioritizedAction.addImplementation
    {| PrioritizedAction.priority := 100;
       PrioritizedAction.surfaceId := "editor";
       PrioritizedAction.handler := editorHelpHandler |} helpAction.

(** The constructor of [HoverAccessibileViewContribution], applied to the
    implementations of [AccessibilityViewAction]. *)
Definition HoverAccessibileViewContribution
    (viewAction : list PrioritizedAction.ActionImplementation) :=
  PrioritizedAction.addImplementation
    {| PrioritizedAction.priority := 90;
       PrioritizedAction.surfaceId := "hover";
       PrioritizedAction.handler := hoverHandler |} viewAction.

End Registration.

(** ** The content of the help view as the specification words it *)

Section HelpContentSpec.

Context `{wb : Workbench}.

(** The editor-mode message chosen by [(inDiffEditor, readOnly)]. *)
Definition editorModeMessage (inDiff ro : bool) : string :=
  match inDiff, ro with
  | true, true => readonlyDiffEditor nls
  | true, false => editableDiffEditor nls
  | false, true => readonlyEditor nls
  | false, false => editableEditor nls
  end.

(** The hint to turn accessibility support on, by operating system. *)
Definition turnOnHint : string :=
  if isMacintosh then changeConfigToOnMac nls else changeConfigToOnWinLinux nls.

(** The line or lines chosen by the accessibility-support setting. *)
Definition accessibilitySupportLines (a : AccessibilitySupport) : list string :=
  match a with
  | Enabled => [auto_on nls]
  | Disabled => [auto_off nls; turnOnHint]
  | Unknown => [turnOnHint]
  end.

(** The description of a command: the keybinding message with the aria
    label when a keybinding is bound, the no-keybinding message with the
    command id otherwise. *)
Definition commandDescription (kb : option ResolvedKeybinding)
    (commandId msg noKbMsg : string) : string :=
  match kb with
  | Some k => strings_format msg (getAriaLabel k)
  | None => strings_format noKbMsg commandId
  end.

(** The tab-focus-mode line. *)
Definition tabFocusLine (w : World) (on : bool) : string :=
  let kb := lookupKeybinding w ToggleTabFocusModeAction_ID in
  if on then
    commandDescription kb ToggleTabFocusModeAction_ID
      (tabFocusModeOnMsg nls) (tabFocusModeOnMsgNoKb nls)
  else
    commandDescription kb ToggleTabFocusModeAction_ID
      (tabFocusModeOffMsg nls) (tabFocusModeOffMsgNoKb nls).

Definition helpLines_spec (w : World) (o : EditorOptions) : list string :=
  [accessibilityHelpTitle nls]
  ++ [editorModeMessage (inDiffEditor o) (readOnly o)]
  ++ accessibilitySupportLines (accessibilitySupport o)
  ++ [tabFocusLine w (tabFocusMode o)].

End HelpContentSpec.

(** ** A concrete workbench

    An instance of the imported names and a few workbench states, used to
    evaluate the definitions above. *)

Module Sample.

(** A [format] that substitutes its argument for every [{0}]. *)
Fixpoint format (value arg : string) : string :=
  match value with
  | String "{" (String "0" (String "}" rest)) => arg ++ format rest arg
  | String c rest => String c (format rest arg)
  | EmptyString => EmptyString
  end.

Definition messages : AccessibilityHelpNLS :=
  {| accessibilityHelpTitle := "Accessibility Help";
     readonlyDiffEditor := "You are in a read-only pane of a diff editor.";
     editableDiffEditor := "You are in a pane of a diff editor.";
     readonlyEditor := "You are in a read-only code editor.";
     editableEditor := "You are in a code editor.";
     changeConfigToOnMac :=
       "Configure the application to be optimized for usage with a Screen Reader (Command+E).";
     changeConfigToOnWinLinux :=
       "Configure the application to be optimized for usage with a Screen Reader (Control+E).";
     auto_on :=
       "The application is configured to be optimized for usage with a Screen Reader.";
     auto_off :=
       "The application is configured to never be optimized for usage with a Screen Reader.";
     tabFocusModeOnMsg :=
       "Pressing Tab in the current editor will move focus to the next focusable element. Toggle this behavior by pressing {0}.";
     tabFocusModeOnMsgNoKb :=
       "Pressing Tab in the current editor will move focus to the next focusable element. The command {0} is currently not triggerable by a keybinding.";
     tabFocusModeOffMsg :=
       "Pressing Tab in the current editor will insert the tab character. Toggle this behavior by pressing {0}.";
     tabFocusModeOffMsgNoKb :=
       "Pressing Tab in the current editor will insert the tab character. The command {0} is currently not triggerable by a keybinding." |}.

Definition toggleTabFocusMode : string := "editor.action.toggleTabFocusMode".
Definition newUntitledFile : string := "workbench.action.files.newUntitledFile".

(** Editor 0 is a read-only pane of a diff editor with accessibility
    support disabled and tab focus mode on; every other editor is a plain
    editable editor. *)
Definition optionsOf (e : ICodeEditor) : EditorOptions :=
  match e with
  | 0 => {| inDiffEditor := true; readOnly := true;
            accessibilitySupport := Disabled; tabFocusMode := true |}
  | _ => {| inDiffEditor := false; readOnly := false;
            accessibilitySupport := Enabled; tabFocusMode := false |}
  end.

Definition altF1 (commandId : string) : option ResolvedKeybinding :=
  if String.eqb commandId toggleTabFocusMode
  then Some {| getAriaLabel := "Alt+F1" |} else None.

(** Editor 0 is active; a hover showing some text is open on it, and
    Alt+F1 toggles tab focus mode. *)
Definition diffWorld : World :=
  {| getActiveCodeEditor := Some 0;
     getFocusedCodeEditor := Some 0;
     getOptions := optionsOf;
     getRawOptions := fun _ => {| accessibilityHelpUrl := None |};
     ModesHoverController_get := fun e => match e with 0 => Some 7 | _ => None end;
     getWidgetContents := fun _ => Some "const answer: number";
     lookupKeybinding := altF1 |}.

(** The same workbench once the hover widget shows another text. *)
Definition diffWorld_later : World :=
  {| getActiveCodeEditor := Some 0;
     getFocusedCodeEditor := Some 0;
     getOptions := optionsOf;
     getRawOptions := fun _ => {| accessibilityHelpUrl := None |};
     ModesHoverController_get := fun e => match e with 0 => Some 7 | _ => None end;
     getWidgetContents := fun _ => Some "function f(): void";
     lookupKeybinding := altF1 |}.

(** No editor is open and no keybinding is bound. *)
Definition noEditorWorld : World :=
  {| getActiveCodeEditor := None;
     getFocusedCodeEditor := None;
     getOptions := optionsOf;
     getRawOptions := fun _ => {| accessibilityHelpUrl := Some "https://example.org/help" |};
     ModesHoverController_get := fun _ => None;
     getWidgetContents := fun _ => None;
     lookupKeybinding := fun _ => None |}.

(** The workbench after the new-untitled-file command: editor 1 is open
    and active. *)
Definition untitledWorld : World :=
  {| getActiveCodeEditor := Some 1;
     getFocusedCodeEditor := Some 1;
     getOptions := optionsOf;
     getRawOptions := fun _ => {| accessibilityHelpUrl := Some "https://example.org/help" |};
     ModesHoverController_get := fun _ => None;
     getWidgetContents := fun _ => None;
     lookupKeybinding := fun _ => None |}.

Definition runCommand (commandId : string) (w : World) : option World :=
  if String.eqb commandId newUntitledFile then Some untitledWorld else Some w.

Definition workbench : Workbench :=
  {| nls := messages;
     strings_format := format;
     localize := fun _ message => message;
     isMacintosh := false;
     ToggleTabFocusModeAction_ID := toggleTabFocusMode;
     NEW_UNTITLED_FILE_COMMAND_ID := newUntitledFile;
     executeCommand := runCommand |}.

(** Editor 2 is active while editor 0 has the focus. *)
Definition splitWorld : World :=
  {| getActiveCodeEditor := Some 2;
     getFocusedCodeEditor := Some 0;
     getOptions := optionsOf;
     getRawOptions := fun _ => {| accessibilityHelpUrl := None |};
     ModesHoverController_get := fun e => match e with 0 => Some 7 | _ => None end;
     getWidgetContents := fun _ => Some "const answer: number";
     lookupKeybinding := altF1 |}.

(** No editor is active; editor 0 has the focus. *)
Definition focusedOnlyWorld : World :=
  {| getActiveCodeEditor := None;
     getFocusedCodeEditor := Some 0;
     getOptions := optionsOf;
     getRawOptions := fun _ => {| accessibilityHelpUrl := None |};
     ModesHoverController_get := fun e => match e with 0 => Some 7 | _ => None end;
     getWidgetContents := fun _ => Some "";
     lookupKeybinding := altF1 |}.

(** A workbench in which every command rejects. *)
Definition rejecting : Workbench :=
  {| nls := messages;
     strings_format := format;
     localize := fun _ message => message;
     isMacintosh := true;
     ToggleTabFocusModeAction_ID := toggleTabFocusMode;
     NEW_UNTITLED_FILE_COMMAND_ID := newUntitledFile;
     executeCommand := fun _ _ => None |}.

(** A workbench in which the new editor gets the focus without becoming
    the active editor. *)
Definition focusing : Workbench :=
  {| nls := messages;
     strings_format := format;
     localize := fun _ message => message;
     isMacintosh := true;
     ToggleTabFocusModeAction_ID := toggleTabFocusMode;
     NEW_UNTITLED_FILE_COMMAND_ID := newUntitledFile;
     executeCommand := fun _ _ => Some focusedOnlyWorld |}.

(** A handler that throws, one that declines and one that accepts. *)
Definition throwing : Handler := fun s => (Throws TypeError, s).
Definition declining : Handler := fun s => (Returns false, s).
Definition accepting : Handler := fun s => (Returns true, s).

Definition impl (p : Z) (sid : string) (h : Handler)
  : PrioritizedAction.ActionImplementation :=
  {| PrioritizedAction.priority := p;
     PrioritizedAction.surfaceId := sid;
     PrioritizedAction.handler := h |}.

End Sample.

(** * Properties *)

(** ** Evaluation on the concrete workbench *)

Example sample_help_content :
  provideContent_lines (wb := Sample.workbench) Sample.diffWorld 0 =
  [ "Accessibility Help";
    "You are in a read-only pane of a diff editor.";
    "The application is configured to never be optimized for usage with a Screen Reader.";
    "Configure the application to be optimized for usage with a Screen Reader (Control+E).";
    "Pressing Tab in the current editor will move focus to the next focusable element. Toggle this behavior by pressing Alt+F1." ].
Proof. reflexivity. Qed.

Example sample_help_no_editor :
  run (editorHelpHandler (wb := Sample.workbench)) Sample.noEditorWorld =
  (Promise (Fulfilled None),
   {| world := Sample.untitledWorld;
      calls := [ CallExecuteCommand Sample.newUntitledFile;
                 CallRegisterProvider
                   (AccessibilityHelpProvider (wb := Sample.workbench) Sample.untitledWorld 1);
                 CallShow "editor" ] |}).
Proof. reflexivity. Qed.

Example sample_hover :
  run (hoverHandler (wb := Sample.workbench)) Sample.diffWorld =
  (Returns true,
   {| world := Sample.diffWorld;
      calls := [ CallRegisterProvider
                   (hoverProvider (wb := Sample.workbench) 7 "const answer: number");
                 CallShow "hover" ] |}).
Proof. reflexivity. Qed.

Example sample_hover_no_editor :
  run (hoverHandler (wb := Sample.workbench)) Sample.noEditorWorld =
  (Returns false, {| world := Sample.noEditorWorld; calls := [] |}).
Proof. reflexivity. Qed.

(** ** The editor help provider *)

Section HelpProviderProperties.

Context `{wb : Workbench}.

Lemma provideContent_lines_spec (w : World) (e : ICodeEditor) :
  provideContent_lines w e = helpLines_spec w (getOptions w e).
Proof.
  unfold provideContent_lines, helpLines_spec, editorModeMessage,
    accessibilitySupportLines, tabFocusLine, turnOnHint,
    _descriptionForCommand, commandDescription, Js.push.
  destruct (getOptions w e) as [d r a t]; simpl.
  destruct d, r, a, t; reflexivity.
Qed.

Lemma provideContent_lines_length (w : World) (e : ICodeEditor) :
  length (provideContent_lines w e) =
  match accessibilitySupport (getOptions w e) with
  | Disabled => 5
  | _ => 4
  end.
Proof.
  rewrite provideContent_lines_spec. unfold helpLines_spec.
  destruct (accessibilitySupport (getOptions w e)); reflexivity.
Qed.

(** C1: for every state of the editor options, the content that the help
    provider returns is the newline-join of, in this order, the title, the
    one editor-mode message selected by (inDiffEditor, readOnly), the
    accessibility-support line or lines selected by the tri-state setting
    with the turn-on hint of the host operating system, and one
    tab-focus-mode line. *)
Theorem provideContent_joins_lines_in_order (w0 w : World) (e : ICodeEditor) :
  provideContent (AccessibilityHelpProvider w0 e) w =
  String.concat Js.newline
    ([accessibilityHelpTitle nls]
     ++ [editorModeMessage (inDiffEditor (getOptions w e)) (readOnly (getOptions w e))]
     ++ accessibilitySupportLines (accessibilitySupport (getOptions w e))
     ++ [tabFocusLine w (tabFocusMode (getOptions w e))]).
Proof.
  change (provideContent (AccessibilityHelpProvider w0 e) w)
    with (Js.join Js.newline (provideContent_lines w e)).
  rewrite provideContent_lines_spec. reflexivity.
Qed.

(** C2 (amended): in a read-only diff editor with accessibility support
    disabled, tab focus mode on and a keybinding with aria label "Alt+F1"
    bound to the toggle command, the content is the newline-join of five
    entries: the title, the readonlyDiffEditor message, the auto_off
    message, the turn-on hint of the operating system, and the
    tab-focus-on message formatted with "Alt+F1". *)
Theorem provideContent_disabled_diff_scenario
    (w0 w : World) (e : ICodeEditor) (kb : ResolvedKeybinding) :
  inDiffEditor (getOptions w e) = true ->
  readOnly (getOptions w e) = true ->
  accessibilitySupport (getOptions w e) = Disabled ->
  tabFocusMode (getOptions w e) = true ->
  lookupKeybinding w ToggleTabFocusModeAction_ID = Some kb ->
  getAriaLabel kb = "Alt+F1" ->
  provideContent (AccessibilityHelpProvider w0 e) w =
    Js.join Js.newline
      [ accessibilityHelpTitle nls;
        readonlyDiffEditor nls;
        auto_off nls;
        (if isMacintosh then changeConfigToOnMac nls else changeConfigToOnWinLinux nls);
        strings_format (tabFocusModeOnMsg nls) "Alt+F1" ]
  /\ length (provideContent_lines w e) = 5.
Proof.
  intros Hd Hr Ha Ht Hk Hl. split.
  - change (provideContent (AccessibilityHelpProvider w0 e) w)
      with (Js.join Js.newline (provideContent_lines w e)).
    f_equal.
    unfold provideContent_lines, _descriptionForCommand, Js.push.
    rewrite Hd, Hr, Ha, Ht, Hk, Hl. reflexivity.
  - rewrite provideContent_lines_length, Ha. reflexivity.
Qed.

(** C6: the description of a command is the keybinding message formatted
    with the aria label of the keybinding when the keybinding service
    resolves one for the command, and the no-keybinding message formatted
    with the command id itself when none is bound; the tab-focus line of
    the content is that description for the toggle command. *)
Theorem descriptionForCommand_cases (w : World) (commandId msg noKbMsg : string) :
  (forall kb, lookupKeybinding w commandId = Some kb ->
     _descriptionForCommand w commandId msg noKbMsg =
     strings_format msg (getAriaLabel kb))
  /\ (lookupKeybinding w commandId = None ->
      _descriptionForCommand w commandId msg noKbMsg =
      strings_format noKbMsg commandId)
  /\ (forall e, last (provideContent_lines w e) =
        Some (if tabFocusMode (getOptions w e)
              then _descriptionForCommand w ToggleTabFocusModeAction_ID
                     (tabFocusModeOnMsg nls) (tabFocusModeOnMsgNoKb nls)
              else _descriptionForCommand w ToggleTabFocusModeAction_ID
                     (tabFocusModeOffMsg nls) (tabFocusModeOffMsgNoKb nls))).
Proof.
  unfold _descriptionForCommand. split; [|split].
  - intros kb ->. reflexivity.
  - intros ->. reflexivity.
  - intros e. unfold provideContent_lines, Js.push.
    destruct (getOptions w e) as [d r a t]; simpl.
    destruct d, r, a, t; reflexivity.
Qed.

(** C9: after construction the readMoreUrl option of the help provider is
    defined; it is the raw accessibilityHelpUrl option of the editor when
    that option is defined and the fixed default URL otherwise. *)
Theorem readMoreUrl_defined (w : World) (e : ICodeEditor) :
  let p := AccessibilityHelpProvider w e in
  is_Some (readMoreUrl (options p))
  /\ (forall u, accessibilityHelpUrl (getRawOptions w e) = Some u ->
        readMoreUrl (options p) = Some u)
  /\ (accessibilityHelpUrl (getRawOptions w e) = None ->
        readMoreUrl (options p) =
        Some "https://go.microsoft.com/fwlink/?linkid=852450").
Proof.
  simpl. unfold helpUrl.
  destruct (accessibilityHelpUrl (getRawOptions w e)) as [u|]; repeat split.
  - eexists; reflexivity.
  - intros u' [= ->]. reflexivity.
  - discriminate.
  - eexists; reflexivity.
  - discriminate.
Qed.

End HelpProviderProperties.

(** ** The two implementations *)

Section HandlerProperties.

Context `{wb : Workbench}.

(** All the paths of the editor-help implementation. *)
Lemma run_editorHelpHandler (w : World) :
  run editorHelpHandler w =
  match currentEditor w with
  | Some e =>
      (Promise (Fulfilled None),
       {| world := w;
          calls := [CallRegisterProvider (AccessibilityHelpProvider w e);
                    CallShow "editor"] |})
  | None =>
      match executeCommand NEW_UNTITLED_FILE_COMMAND_ID w with
      | None =>
          (Promise (Rejected CommandRejected),
           {| world := w;
              calls := [CallExecuteCommand NEW_UNTITLED_FILE_COMMAND_ID] |})
      | Some w' =>
          match getActiveCodeEditor w' with
          | Some e =>
              (Promise (Fulfilled None),
               {| world := w';
                  calls := [CallExecuteCommand NEW_UNTITLED_FILE_COMMAND_ID;
                            CallRegisterProvider (AccessibilityHelpProvider w' e);
                            CallShow "editor"] |})
          | None =>
              (Promise (Rejected TypeError),
               {| world := w';
                  calls := [CallExecuteCommand NEW_UNTITLED_FILE_COMMAND_ID] |})
          end
      end
  end.
Proof.
  unfold run, editorHelpHandler, async, editorHelpBody, currentEditor, Js.or,
    codeEditorService_getActiveCodeEditor, codeEditorService_getFocusedCodeEditor,
    commandService_executeCommand, createInstance_AccessibilityHelpProvider,
    accessibleViewService_registerProvider, accessibleViewService_show,
    read, log, throw, mbind, mret, M_bind, M_ret; simpl.
  destruct (getActiveCodeEditor w) as [e|]; simpl; [reflexivity|].
  destruct (getFocusedCodeEditor w) as [e|]; simpl; [reflexivity|].
  destruct (executeCommand NEW_UNTITLED_FILE_COMMAND_ID w) as [w'|]; simpl;
    [|reflexivity].
  destruct (getActiveCodeEditor w') as [e|]; reflexivity.
Qed.

(** All the paths of the hover implementation. *)
Lemma run_hoverHandler (w : World) :
  run hoverHandler w =
  match currentEditor w with
  | None => (Returns false, {| world := w; calls := [] |})
  | Some e =>
      match ModesHoverController_get w e with
      | None => (Returns false, {| world := w; calls := [] |})
      | Some c =>
          match getWidgetContents w c with
          | Some (String a text) =>
              (Returns true,
               {| world := w;
                  calls := [CallRegisterProvider (hoverProvider c (String a text));
                            CallShow "hover"] |})
          | _ => (Returns false, {| world := w; calls := [] |})
          end
      end
  end.
Proof.
  unfold run, hoverHandler, sync, hoverBody, currentEditor, Js.or,
    codeEditorService_getActiveCodeEditor, codeEditorService_getFocusedCodeEditor,
    accessibleViewService_registerProvider, accessibleViewService_show,
    read, log, mbind, mret, M_bind, M_ret; simpl.
  destruct (getActiveCodeEditor w) as [e|]; simpl.
  - destruct (ModesHoverController_get w e) as [c|]; simpl; [|reflexivity].
    destruct (getWidgetContents w c) as [[|a text]|]; reflexivity.
  - destruct (getFocusedCodeEditor w) as [e|]; simpl; [|reflexivity].
    destruct (ModesHoverController_get w e) as [c|]; simpl; [|reflexivity].
    destruct (getWidgetContents w c) as [[|a text]|]; reflexivity.
Qed.

(** C4: when there is no active or focused code editor, or the editor has
    no hover controller, or the contents of the hover widget are absent or
    empty, the hover implementation returns false and calls neither
    registerProvider nor show. *)
Theorem hover_declines_without_content (w : World) :
  (getActiveCodeEditor w = None /\ getFocusedCodeEditor w = None)
  \/ (exists e, currentEditor w = Some e /\ ModesHoverController_get w e = None)
  \/ (exists e c, currentEditor w = Some e
                 /\ ModesHoverController_get w e = Some c
                 /\ (getWidgetContents w c = None \/ getWidgetContents w c = Some "")) ->
  (run hoverHandler w).1 = Returns false
  /\ (forall c, c ∈ calls (run hoverHandler w).2 ->
         is_register c = false /\ is_show c = false)
  /\ calls (run hoverHandler w).2 = [].
Proof.
  intros Hcase. rewrite run_hoverHandler.
  assert (Hnone : forall c : Call, c ∈ @nil Call ->
            is_register c = false /\ is_show c = false)
    by (intros c Hc; inversion Hc).
  destruct Hcase as [[Ha Hf] | [(e & He & Hc) | (e & c & He & Hc & Hw)]].
  - unfold currentEditor. rewrite Ha, Hf. simpl. auto.
  - rewrite He, Hc. simpl. auto.
  - rewrite He, Hc. destruct Hw as [-> | ->]; simpl; auto.
Qed.

(** C7: when no code editor is active or focused, the editor-help
    implementation first executes the new-untitled-file command, then
    registers an AccessibilityHelpProvider for the editor that is active
    afterwards and shows the 'editor' slot. *)
Theorem editor_help_opens_untitled_file (w w' : World) (e : ICodeEditor) :
  getActiveCodeEditor w = None ->
  getFocusedCodeEditor w = None ->
  executeCommand NEW_UNTITLED_FILE_COMMAND_ID w = Some w' ->
  getActiveCodeEditor w' = Some e ->
  calls (run editorHelpHandler w).2 =
    [ CallExecuteCommand NEW_UNTITLED_FILE_COMMAND_ID;
      CallRegisterProvider (AccessibilityHelpProvider w' e);
      CallShow "editor" ]
  /\ world (run editorHelpHandler w).2 = w'.
Proof.
  intros Ha Hf Hc He. rewrite run_editorHelpHandler.
  unfold currentEditor. rewrite Ha, Hf. simpl. rewrite Hc, He. auto.
Qed.

(** C8: the provideContent of a provider registered by the hover
    implementation is constant: in every later state of the workbench it
    returns the contents that the hover widget had when the implementation
    ran. *)
Theorem hover_content_is_snapshot (w : World) (p : IAccessibleContentProvider) :
  CallRegisterProvider p ∈ calls (run hoverHandler w).2 ->
  exists e c text,
    currentEditor w = Some e
    /\ ModesHoverController_get w e = Some c
    /\ getWidgetContents w c = Some text
    /\ forall later : World, provideContent p later = text.
Proof.
  rewrite run_hoverHandler.
  destruct (currentEditor w) as [e|]; [|intros Hin; inversion Hin].
  destruct (ModesHoverController_get w e) as [c|] eqn:Hc;
    [|intros Hin; inversion Hin].
  destruct (getWidgetContents w c) as [[|a text]|] eqn:Hw;
    try (intros Hin; inversion Hin; fail).
  simpl. intros Hin.
  apply elem_of_cons in Hin as [Heq | Hin].
  - injection Heq as ->. exists e, c, (String a text). auto.
  - apply elem_of_cons in Hin as [Heq | Hin]; [discriminate | inversion Hin].
Qed.

(** C5 (amended): the hover implementation, registered with priority 90,
    returns the boolean true on the path where it opens the view and
    false otherwise.  The editor-help implementation, registered with
    priority 100, is an async function without a return value: on the path
    where it opens the view its promise is fulfilled with undefined, and
    on its other paths the promise rejects. *)
Theorem handler_results (w : World) :
  EditorAccessibilityHelpContribution [] =
    [ {| PrioritizedAction.priority := 100;
         PrioritizedAction.surfaceId := "editor";
         PrioritizedAction.handler := editorHelpHandler |} ]
  /\ HoverAccessibileViewContribution [] =
    [ {| PrioritizedAction.priority := 90;
         PrioritizedAction.surfaceId := "hover";
         PrioritizedAction.handler := hoverHandler |} ]
  /\ (CallShow "hover" ∈ calls (run hoverHandler w).2 ->
      (run hoverHandler w).1 = Returns true)
  /\ (CallShow "hover" ∉ calls (run hoverHandler w).2 ->
      (run hoverHandler w).1 = Returns false)
  /\ (CallShow "editor" ∈ calls (run editorHelpHandler w).2 ->
      (run editorHelpHandler w).1 = Promise (Fulfilled None))
  /\ (CallShow "editor" ∉ calls (run editorHelpHandler w).2 ->
      exists err, (run editorHelpHandler w).1 = Promise (Rejected err)).
Proof.
  assert (Hnil : forall c : Call, c ∈ @nil Call -> False)
    by (intros c Hc; inversion Hc).
  assert (Hlast : forall (a b : Call), b ∈ [a; b])
    by (intros a b; apply elem_of_cons; right; apply elem_of_cons; left;
        reflexivity).
  assert (Hlast3 : forall (a b c : Call), c ∈ [a; b; c])
    by (intros a b c; apply elem_of_cons; right; apply Hlast).
  split; [reflexivity|]. split; [reflexivity|].
  rewrite run_hoverHandler, run_editorHelpHandler.
  repeat split.
  - destruct (currentEditor w) as [e|]; simpl; [|intros Hin; destruct (Hnil _ Hin)].
    destruct (ModesHoverController_get w e) as [c|]; simpl;
      [|intros Hin; destruct (Hnil _ Hin)].
    destruct (getWidgetContents w c) as [[|a text]|]; simpl;
      try (intros Hin; destruct (Hnil _ Hin)).
    reflexivity.
  - destruct (currentEditor w) as [e|]; simpl; [|reflexivity].
    destruct (ModesHoverController_get w e) as [c|]; simpl; [|reflexivity].
    destruct (getWidgetContents w c) as [[|a text]|]; simpl; try reflexivity.
    intros Hnot. destruct Hnot. apply Hlast.
  - destruct (currentEditor w) as [e|]; simpl; [reflexivity|].
    destruct (executeCommand NEW_UNTITLED_FILE_COMMAND_ID w) as [w'|]; simpl.
    + destruct (getActiveCodeEditor w') as [e|]; simpl; [reflexivity|].
      intros Hin. apply elem_of_cons in Hin as [Heq | Hin];
        [discriminate | destruct (Hnil _ Hin)].
    + intros Hin. apply elem_of_cons in Hin as [Heq | Hin];
        [discriminate | destruct (Hnil _ Hin)].
  - destruct (currentEditor w) as [e|]; simpl.
    { intros Hnot. destruct Hnot. apply Hlast. }
    destruct (executeCommand NEW_UNTITLED_FILE_COMMAND_ID w) as [w'|]; simpl.
    + destruct (getActiveCodeEditor w') as [e|]; simpl.
      * intros Hnot. destruct Hnot. apply Hlast3.
      * intros _. eexists; reflexivity.
    + intros _. eexists; reflexivity.
Qed.

(** A log in which every [show] directly follows the registration of a
    provider with the same id never meets an empty slot. *)
Lemma replay_never_NotRegistered (cs : list Call) :
  forall (prev : option Call) (r : ProviderRegistry.t),
    match prev with
    | Some (CallRegisterProvider p) =>
        is_Some (ProviderRegistry.slots r !! id p)
    | _ => True
    end ->
    show_follows_register prev cs = true ->
    ProviderRegistry.NotRegistered ∉ (ProviderRegistry.replay cs r).1.
Proof.
  induction cs as [|c rest IH]; intros prev r Hprev Hok; simpl.
  - intros Hin. inversion Hin.
  - simpl in Hok. apply andb_true_iff in Hok as [Hc Hrest].
    destruct c as [cmd | p | slotId].
    + apply (IH (Some (CallExecuteCommand cmd))); [exact I | exact Hrest].
    + apply (IH (Some (CallRegisterProvider p))); [|exact Hrest].
      simpl. rewrite lookup_insert_eq. eexists; reflexivity.
    + destruct prev as [[cmd | p | other]|]; try discriminate.
      apply String.eqb_eq in Hc. subst slotId.
      destruct Hprev as [q Hq].
      unfold ProviderRegistry.show. rewrite Hq.
      specialize (IH (Some (CallShow (id p)))
        {| ProviderRegistry.slots := ProviderRegistry.slots r;
           ProviderRegistry.shown := ProviderRegistry.shown r ∪ {[id p]};
           ProviderRegistry.closed := ProviderRegistry.closed r |} I Hrest).
      destruct (ProviderRegistry.replay rest _) as [ress r'']. simpl in *.
      intros Hin. apply elem_of_cons in Hin as [Heq | Hin];
        [discriminate | exact (IH Hin)].
Qed.

(** C10: in both implementations every call of show directly follows a
    registerProvider of a provider whose id is the slot that is shown,
    'editor' for the help implementation and 'hover' for the hover
    implementation, so that show never reports NotRegistered for these
    calls, whatever the service held before. *)
Theorem show_only_after_registerProvider (w : World) :
  let help := calls (run editorHelpHandler w).2 in
  let hover := calls (run hoverHandler w).2 in
  show_follows_register None help = true
  /\ show_follows_register None hover = true
  /\ (forall slotId, CallShow slotId ∈ help -> slotId = "editor")
  /\ (forall slotId, CallShow slotId ∈ hover -> slotId = "hover")
  /\ (forall r, ProviderRegistry.NotRegistered ∉ (ProviderRegistry.replay help r).1)
  /\ (forall r, ProviderRegistry.NotRegistered ∉ (ProviderRegistry.replay hover r).1).
Proof.
  intros help hover.
  assert (Hhelp : show_follows_register None help = true).
  { subst help. rewrite run_editorHelpHandler.
    destruct (currentEditor w) as [e|]; simpl; [reflexivity|].
    destruct (executeCommand NEW_UNTITLED_FILE_COMMAND_ID w) as [w'|]; simpl;
      [|reflexivity].
    destruct (getActiveCodeEditor w') as [e|]; reflexivity. }
  assert (Hhover : show_follows_register None hover = true).
  { subst hover. rewrite run_hoverHandler.
    destruct (currentEditor w) as [e|]; simpl; [|reflexivity].
    destruct (ModesHoverController_get w e) as [c|]; simpl; [|reflexivity].
    destruct (getWidgetContents w c) as [[|a text]|]; reflexivity. }
  split; [exact Hhelp|]. split; [exact Hhover|].
  split; [|split; [|split]].
  - subst help. rewrite run_editorHelpHandler. intros slotId.
    destruct (currentEditor w) as [e|]; simpl.
    { intros Hin. repeat (apply elem_of_cons in Hin as [Heq | Hin];
        [try discriminate; try (injection Heq as ->; reflexivity)|]).
      inversion Hin. }
    destruct (executeCommand NEW_UNTITLED_FILE_COMMAND_ID w) as [w'|]; simpl.
    + destruct (getActiveCodeEditor w') as [e|]; simpl; intros Hin;
        repeat (apply elem_of_cons in Hin as [Heq | Hin];
          [try discriminate; try (injection Heq as ->; reflexivity)|]);
        inversion Hin.
    + intros Hin. repeat (apply elem_of_cons in Hin as [Heq | Hin];
        [try discriminate; try (injection Heq as ->; reflexivity)|]).
      inversion Hin.
  - subst hover. rewrite run_hoverHandler. intros slotId.
    destruct (currentEditor w) as [e|]; simpl; [|intros Hin; inversion Hin].
    destruct (ModesHoverController_get w e) as [c|]; simpl;
      [|intros Hin; inversion Hin].
    destruct (getWidgetContents w c) as [[|a text]|]; simpl; intros Hin;
      repeat (apply elem_of_cons in Hin as [Heq | Hin];
        [try discriminate; try (injection Heq as ->; reflexivity)|]);
      inversion Hin.
  - intros r. apply (replay_never_NotRegistered help None r I Hhelp).
  - intros r. apply (replay_never_NotRegistered hover None r I Hhover).
Qed.

End HandlerProperties.

(** ** Dispatch over the implementations *)

Section Dispatch.

Import PrioritizedAction.

Lemma faulty_not_handled (r : HandlerResult) :
  faulty r = true -> handled r = false.
Proof. destruct r as [b | e | [v | e]]; simpl; congruence. Qed.

Lemma invoke_completes (impls : list ActionImplementation) :
  forall s, exists b, result (invoke impls s) = Normal b.
Proof.
  induction impls as [|i rest IH]; intros s; simpl.
  - exists false. reflexivity.
  - destruct (handler i s) as [r s'].
    destruct (handled r); simpl; [exists true; reflexivity | apply IH].
Qed.

(** When no implementation of [pre] handles the action, the walk goes on
    with the implementations that follow, in the state that [pre] left. *)
Lemma invoke_app (pre post : list ActionImplementation) :
  forall s,
    result (invoke pre s) = Normal false ->
    invoke (pre ++ post) s =
    {| result := result (invoke post (final (invoke pre s)));
       attempted := attempted (invoke pre s)
                    ++ attempted (invoke post (final (invoke pre s)));
       final := final (invoke post (final (invoke pre s))) |}.
Proof.
  induction pre as [|i pre IH]; intros s Hres; simpl.
  - destruct (invoke post s); reflexivity.
  - simpl in Hres. destruct (handler i s) as [r s'].
    destruct (handled r); simpl in *; [discriminate|].
    rewrite (IH s' Hres). reflexivity.
Qed.

Lemma invoke_without_faults_head (i : ActionImplementation)
    (rest : list ActionImplementation) (s : St) :
  invoke (without_faults i :: rest) s = invoke (i :: rest) s.
Proof.
  simpl. unfold returning_false_on_fault.
  destruct (handler i s) as [r s'].
  destruct (faulty r) eqn:Hf; [|reflexivity].
  rewrite (faulty_not_handled r Hf). reflexivity.
Qed.

(** C3: a handler that throws, or whose promise rejects, when the walk
    reaches it is treated as one that returned false: the walk continues
    with the next implementation, the outcome is the one obtained with a
    handler that returns false there, and invoke completes with a boolean
    and not with an exception. *)
Theorem invoke_treats_fault_as_false
    (pre post : list ActionImplementation) (i : ActionImplementation) (s : St) :
  result (invoke pre s) = Normal false ->
  faulty (handler i (final (invoke pre s))).1 = true ->
  let s' := (handler i (final (invoke pre s))).2 in
  invoke (pre ++ i :: post) s =
    {| result := result (invoke post s');
       attempted := attempted (invoke pre s) ++ surfaceId i :: attempted (invoke post s');
       final := final (invoke post s') |}
  /\ invoke (pre ++ i :: post) s = invoke (pre ++ without_faults i :: post) s
  /\ exists b, result (invoke (pre ++ i :: post) s) = Normal b.
Proof.
  intros Hpre Hfault s'. split; [|split].
  - rewrite (invoke_app pre (i :: post) s Hpre). simpl.
    subst s'. destruct (handler i (final (invoke pre s))) as [r s1].
    simpl in *. rewrite (faulty_not_handled r Hfault). reflexivity.
  - rewrite (invoke_app pre (i :: post) s Hpre).
    rewrite (invoke_app pre (without_faults i :: post) s Hpre).
    rewrite invoke_without_faults_head. reflexivity.
  - apply invoke_completes.
Qed.

End Dispatch.

(** ** Instances on the concrete workbench *)

Lemma provideContent_disabled_diff_scenario_witness :
  provideContent
    (AccessibilityHelpProvider (wb := Sample.workbench) Sample.diffWorld 0)
    Sample.diffWorld =
  Js.join Js.newline
    [ "Accessibility Help";
      "You are in a read-only pane of a diff editor.";
      "The application is configured to never be optimized for usage with a Screen Reader.";
      "Configure the application to be optimized for usage with a Screen Reader (Control+E).";
      "Pressing Tab in the current editor will move focus to the next focusable element. Toggle this behavior by pressing Alt+F1." ]
  /\ length (provideContent_lines (wb := Sample.workbench) Sample.diffWorld 0) = 5.
Proof.
  apply (provideContent_disabled_diff_scenario (wb := Sample.workbench)
           Sample.diffWorld Sample.diffWorld 0 {| getAriaLabel := "Alt+F1" |});
    reflexivity.
Defined.

(** C2 as stated fails: in the scenario the content has five lines, not
    four, because the auto_off message and the turn-on hint are separate
    entries of the joined array. *)
Lemma provideContent_scenario_not_four_lines :
  ~ (Js.line_count
       (provideContent
          (AccessibilityHelpProvider (wb := Sample.workbench) Sample.diffWorld 0)
          Sample.diffWorld) = 4).
Proof. vm_compute. discriminate. Qed.

Lemma descriptionForCommand_cases_witness :
  _descriptionForCommand (wb := Sample.workbench) Sample.diffWorld
    Sample.toggleTabFocusMode "Toggle with {0}." "Run {0}." = "Toggle with Alt+F1."
  /\ _descriptionForCommand (wb := Sample.workbench) Sample.noEditorWorld
       Sample.toggleTabFocusMode "Toggle with {0}." "Run {0}."
     = "Run editor.action.toggleTabFocusMode.".
Proof.
  split.
  - apply (proj1 (descriptionForCommand_cases (wb := Sample.workbench)
             Sample.diffWorld Sample.toggleTabFocusMode
             "Toggle with {0}." "Run {0}.") {| getAriaLabel := "Alt+F1" |}).
    reflexivity.
  - apply (proj1 (proj2 (descriptionForCommand_cases (wb := Sample.workbench)
             Sample.noEditorWorld Sample.toggleTabFocusMode
             "Toggle with {0}." "Run {0}."))).
    reflexivity.
Defined.

Lemma readMoreUrl_defined_witness :
  readMoreUrl (options (AccessibilityHelpProvider (wb := Sample.workbench)
                          Sample.diffWorld 0))
  = Some "https://go.microsoft.com/fwlink/?linkid=852450"
  /\ readMoreUrl (options (AccessibilityHelpProvider (wb := Sample.workbench)
                             Sample.untitledWorld 1))
     = Some "https://example.org/help".
Proof.
  split.
  - apply (proj2 (proj2 (readMoreUrl_defined (wb := Sample.workbench)
             Sample.diffWorld 0))).
    reflexivity.
  - apply (proj1 (proj2 (readMoreUrl_defined (wb := Sample.workbench)
             Sample.untitledWorld 1))).
    reflexivity.
Defined.

Lemma invoke_treats_fault_as_false_witness :
  PrioritizedAction.invoke
    ([Sample.impl 10 "first" Sample.declining]
     ++ Sample.impl 5 "broken" Sample.throwing
     :: [Sample.impl 1 "last" Sample.accepting])
    {| world := Sample.noEditorWorld; calls := [] |}
  = {| PrioritizedAction.result := Normal true;
       PrioritizedAction.attempted := ["first"; "broken"; "last"];
       PrioritizedAction.final := {| world := Sample.noEditorWorld; calls := [] |} |}.
Proof.
  apply (proj1 (invoke_treats_fault_as_false
                  [Sample.impl 10 "first" Sample.declining]
                  [Sample.impl 1 "last" Sample.accepting]
                  (Sample.impl 5 "broken" Sample.throwing)
                  {| world := Sample.noEditorWorld; calls := [] |}
                  eq_refl eq_refl)).
Defined.

Lemma hover_declines_without_content_witness :
  (run (hoverHandler (wb := Sample.workbench)) Sample.noEditorWorld).1 = Returns false
  /\ calls (run (hoverHandler (wb := Sample.workbench)) Sample.noEditorWorld).2 = [].
Proof.
  assert (Hcase :
    (getActiveCodeEditor Sample.noEditorWorld = None
     /\ getFocusedCodeEditor Sample.noEditorWorld = None)
    \/ (exists e, currentEditor Sample.noEditorWorld = Some e
                  /\ ModesHoverController_get Sample.noEditorWorld e = None)
    \/ (exists e c, currentEditor Sample.noEditorWorld = Some e
                    /\ ModesHoverController_get Sample.noEditorWorld e = Some c
                    /\ (getWidgetContents Sample.noEditorWorld c = None
                        \/ getWidgetContents Sample.noEditorWorld c = Some "")))
    by (left; split; reflexivity).
  destruct (hover_declines_without_content (wb := Sample.workbench)
              Sample.noEditorWorld Hcase) as (Hres & _ & Hcalls).
  split; [exact Hres | exact Hcalls].
Defined.

Lemma handler_results_witness :
  (run (hoverHandler (wb := Sample.workbench)) Sample.diffWorld).1 = Returns true
  /\ (run (hoverHandler (wb := Sample.workbench)) Sample.noEditorWorld).1 = Returns false
  /\ (run (editorHelpHandler (wb := Sample.workbench)) Sample.diffWorld).1
     = Promise (Fulfilled None).
Proof.
  split; [|split].
  - apply (proj1 (proj2 (proj2 (handler_results (wb := Sample.workbench)
             Sample.diffWorld)))).
    simpl. apply elem_of_cons. right. apply elem_of_cons. left. reflexivity.
  - apply (proj1 (proj2 (proj2 (proj2 (handler_results (wb := Sample.workbench)
             Sample.noEditorWorld))))).
    simpl. intros Hin. inversion Hin.
  - apply (proj1 (proj2 (proj2 (proj2 (proj2 (handler_results
             (wb := Sample.workbench) Sample.diffWorld)))))).
    simpl. apply elem_of_cons. right. apply elem_of_cons. left. reflexivity.
Defined.

(** C5 as stated fails for the editor-help implementation: with an editor
    active it opens the view, yet what it returns is neither [true] nor a
    promise of [true]. *)
Lemma editor_help_opens_view_without_true :
  ~ (CallShow "editor"
       ∈ calls (run (editorHelpHandler (wb := Sample.workbench)) Sample.diffWorld).2 ->
     (run (editorHelpHandler (wb := Sample.workbench)) Sample.diffWorld).1
       = Returns true
     \/ (run (editorHelpHandler (wb := Sample.workbench)) Sample.diffWorld).1
       = Promise (Fulfilled (Some true))).
Proof.
  intros Hclaim. destruct Hclaim as [Hr | Hp].
  - simpl. apply elem_of_cons. right. apply elem_of_cons. left. reflexivity.
  - discriminate Hr.
  - discriminate Hp.
Qed.

Lemma editor_help_opens_untitled_file_witness :
  calls (run (editorHelpHandler (wb := Sample.workbench)) Sample.noEditorWorld).2 =
    [ CallExecuteCommand "workbench.action.files.newUntitledFile";
      CallRegisterProvider
        (AccessibilityHelpProvider (wb := Sample.workbench) Sample.untitledWorld 1);
      CallShow "editor" ]
  /\ world (run (editorHelpHandler (wb := Sample.workbench)) Sample.noEditorWorld).2
     = Sample.untitledWorld.
Proof.
  apply (editor_help_opens_untitled_file (wb := Sample.workbench)
           Sample.noEditorWorld Sample.untitledWorld 1);
    reflexivity.
Defined.

Lemma hover_content_is_snapshot_witness :
  exists e c text,
    currentEditor Sample.diffWorld = Some e
    /\ ModesHoverController_get Sample.diffWorld e = Some c
    /\ getWidgetContents Sample.diffWorld c = Some text
    /\ forall later : World,
         provideContent (hoverProvider (wb := Sample.workbench) 7 "const answer: number")
           later = text.
Proof.
  apply (hover_content_is_snapshot (wb := Sample.workbench) Sample.diffWorld
           (hoverProvider (wb := Sample.workbench) 7 "const answer: number")).
  simpl. apply elem_of_cons. left. reflexivity.
Defined.

Lemma show_only_after_registerProvider_witness :
  show_follows_register None
    (calls (run (editorHelpHandler (wb := Sample.workbench)) Sample.noEditorWorld).2)
  = true
  /\ ProviderRegistry.NotRegistered
     ∉ (ProviderRegistry.replay
          (calls (run (hoverHandler (wb := Sample.workbench)) Sample.diffWorld).2)
          {| ProviderRegistry.slots := ∅;
             ProviderRegistry.shown := ∅;
             ProviderRegistry.closed := [] |}).1.
Proof.
  split.
  - exact (proj1 (show_only_after_registerProvider (wb := Sample.workbench)
                    Sample.noEditorWorld)).
  - exact (proj2 (proj2 (proj2 (proj2 (proj2
             (show_only_after_registerProvider (wb := Sample.workbench)
                Sample.diffWorld)))))
             {| ProviderRegistry.slots := ∅;
                ProviderRegistry.shown := ∅;
                ProviderRegistry.closed := [] |}).
Defined.

(** The content of the help provider is read from the workbench at each
    call, unlike that of the hover provider. *)
Example help_content_follows_workbench :
  provideContent (AccessibilityHelpProvider (wb := Sample.workbench) Sample.diffWorld 0)
    Sample.diffWorld
  <> provideContent (AccessibilityHelpProvider (wb := Sample.workbench) Sample.diffWorld 0)
       Sample.noEditorWorld.
Proof. vm_compute. discriminate. Qed.

Example hover_content_ignores_later_widget :
  provideContent (hoverProvider (wb := Sample.workbench) 7 "const answer: number")
    Sample.diffWorld_later = "const answer: number".
Proof. reflexivity. Qed.

(** * Further properties *)

(** ** The editor-help implementation *)

Section EditorHelpPaths.

Context `{wb : Workbench}.




(** X2: the promise of the editor-help implementation is fulfilled exactly
    when an editor is active or focused, or the new-untitled-file command
    completes and leaves an active editor. *)
Theorem editor_help_fulfilled_iff (w : World) :
  (run editorHelpHandler w).1 = Promise (Fulfilled None) <->
  (is_Some (currentEditor w)
   \/ exists w', executeCommand NEW_UNTITLED_FILE_COMMAND_ID w = Some w'
                 /\ is_Some (getActiveCodeEditor w')).
Proof.
  rewrite run_editorHelpHandler.
  destruct (currentEditor w) as [e|]; simpl.
  { split; [intros _; left; eexists; reflexivity | reflexivity]. }
  destruct (executeCommand NEW_UNTITLED_FILE_COMMAND_ID w) as [w'|]; simpl.
  - destruct (getActiveCodeEditor w') as [e|] eqn:He; simpl.
    + split; [|reflexivity]. intros _. right. exists w'.
      split; [reflexivity|]. rewrite He. eexists; reflexivity.
    + split; [discriminate|].
      intros [[x Hx] | (w'' & Hw & [x Hx])]; [discriminate|].
      injection Hw as <-. rewrite He in Hx. discriminate.
  - split; [discriminate|].
    intros [[x Hx] | (w'' & Hw & _)]; discriminate.
Qed.

(** X3: when the promise of the editor-help implementation rejects, the
    only call made is the new-untitled-file command: no provider is
    registered and nothing is shown.  The rejection is that of the command
    when the command rejects, and a TypeError when the command completes
    without leaving an active editor, even if it leaves a focused one. *)
Theorem editor_help_rejection (w : World) (err : JsError) :
  (run editorHelpHandler w).1 = Promise (Rejected err) ->
  calls (run editorHelpHandler w).2 =
    [CallExecuteCommand NEW_UNTITLED_FILE_COMMAND_ID]
  /\ currentEditor w = None
  /\ (err = CommandRejected <->
      executeCommand NEW_UNTITLED_FILE_COMMAND_ID w = None)
  /\ (err = TypeError <->
      exists w', executeCommand NEW_UNTITLED_FILE_COMMAND_ID w = Some w'
                 /\ getActiveCodeEditor w' = None).
Proof.
  rewrite run_editorHelpHandler.
  destruct (currentEditor w) as [e|]; simpl; [discriminate|].
  destruct (executeCommand NEW_UNTITLED_FILE_COMMAND_ID w) as [w'|]; simpl.
  - destruct (getActiveCodeEditor w') as [e|] eqn:He; simpl; [discriminate|].
    intros [= <-]. repeat split; try discriminate.
    + intros _. exists w'. auto.
  - intros [= <-]. repeat split; try discriminate.
    intros (w' & Hw & _). discriminate.
Qed.

(** X4: the editor-help implementation executes a command only when no
    editor is active or focused; it is then the new-untitled-file command,
    executed once and before any other call. *)
Theorem editor_help_command_only_without_editor (w : World) :
  (is_Some (currentEditor w) ->
     forall c, CallExecuteCommand c ∉ calls (run editorHelpHandler w).2)
  /\ (currentEditor w = None ->
      exists rest,
        calls (run editorHelpHandler w).2 =
          CallExecuteCommand NEW_UNTITLED_FILE_COMMAND_ID :: rest
        /\ forall c, CallExecuteCommand c ∉ rest).
Proof.
  rewrite run_editorHelpHandler. split.
  - intros [e ->] c. simpl. intros Hin.
    repeat (apply elem_of_cons in Hin as [Heq | Hin]; [discriminate|]).
    inversion Hin.
  - intros ->.
    destruct (executeCommand NEW_UNTITLED_FILE_COMMAND_ID w) as [w'|]; simpl.
    + destruct (getActiveCodeEditor w') as [e|]; simpl;
        eexists; (split; [reflexivity|]); intros c Hin;
        repeat (apply elem_of_cons in Hin as [Heq | Hin]; [discriminate|]);
        inversion Hin.
    + eexists; split; [reflexivity|]. intros c Hin. inversion Hin.
Qed.



End EditorHelpPaths.

(** ** The hover implementation *)

Section HoverPaths.

Context `{wb : Workbench}.

(** X7: the hover implementation returns true exactly when the active
    editor, or the focused one when none is active, has a hover controller
    whose widget holds a non-empty text. *)
Theorem hover_opens_view_iff (w : World) :
  (run hoverHandler w).1 = Returns true <->
  exists e c text,
    currentEditor w = Some e
    /\ ModesHoverController_get w e = Some c
    /\ getWidgetContents w c = Some text
    /\ text <> "".
Proof.
  rewrite run_hoverHandler.
  destruct (currentEditor w) as [e|]; simpl.
  2: { split; [discriminate | intros (e & c & t & He & _); discriminate]. }
  destruct (ModesHoverController_get w e) as [c|] eqn:Hc; simpl.
  2: { split; [discriminate|].
       intros (e' & c' & t & [= <-] & Hc' & _). congruence. }
  destruct (getWidgetContents w c) as [[|a text]|] eqn:Hw; simpl.
  - split; [discriminate|].
    intros (e' & c' & t & [= <-] & Hc' & Hw' & Hne).
    assert (c' = c) as -> by congruence. congruence.
  - split; [|reflexivity]. intros _.
    exists e, c, (String a text). repeat split; auto; discriminate.
  - split; [discriminate|].
    intros (e' & c' & t & [= <-] & Hc' & Hw' & Hne).
    assert (c' = c) as -> by congruence. congruence.
Qed.


(** X9: a provider registered by the hover implementation never provides
    an empty text, in any later state of the workbench; its id is 'hover',
    its language is 'typescript', it is not a help menu and has no
    read-more URL, and closing it disposes the registration and then gives
    the focus to the hover controller of the editor it was opened on. *)
Theorem hover_registered_provider (w : World) (p : IAccessibleContentProvider) :
  CallRegisterProvider p ∈ calls (run hoverHandler w).2 ->
  (forall later : World, provideContent p later <> "")
  /\ id p = "hover"
  /\ language (options p) = Some "typescript"
  /\ isHelpMenu (options p) = None
  /\ readMoreUrl (options p) = None
  /\ exists e c,
       currentEditor w = Some e
       /\ ModesHoverController_get w e = Some c
       /\ onClose p = [DisposeRegistration; FocusHover c].
Proof.
  rewrite run_hoverHandler.
  destruct (currentEditor w) as [e|]; [|intros Hin; inversion Hin].
  destruct (ModesHoverController_get w e) as [c|] eqn:Hc;
    [|intros Hin; inversion Hin].
  destruct (getWidgetContents w c) as [[|a text]|] eqn:Hw;
    try (intros Hin; inversion Hin; fail).
  simpl. intros Hin.
  apply elem_of_cons in Hin as [Heq | Hin].
  - injection Heq as ->. simpl.
    split; [intros _; discriminate|].
    repeat (split; [reflexivity|]).
    exists e, c. auto.
  - apply elem_of_cons in Hin as [Heq | Hin]; [discriminate | inversion Hin].
Qed.

End HoverPaths.

(** ** The content of the help view *)

Section HelpContentShape.

Context `{wb : Workbench}.

Lemma count_newlines_app (s t : string) :
  Js.count_newlines (s ++ t) = Js.count_newlines s + Js.count_newlines t.
Proof.
  induction s as [|c s IH]; simpl; [reflexivity|].
  rewrite IH. lia.
Qed.

(** The separators that [join] adds are the only new line breaks. *)
Lemma count_newlines_join (l : list string) :
  Js.count_newlines (Js.join Js.newline l) =
  sum_list (Js.count_newlines <$> l) + (length l - 1).
Proof.
  unfold Js.join.
  induction l as [|x l IH]; [reflexivity|].
  destruct l as [|y l]; [simpl; lia|].
  change (String.concat Js.newline (x :: y :: l))
    with (x ++ Js.newline ++ String.concat Js.newline (y :: l)).
  rewrite !count_newlines_app, IH.
  change (Js.count_newlines Js.newline) with 1.
  rewrite !fmap_cons. simpl. lia.
Qed.

(** X10: when no entry of the content contains a line break, the text that
    the help provider returns has exactly five lines if accessibility
    support is Disabled and exactly four lines otherwise. *)
Theorem provideContent_line_count (w0 w : World) (e : ICodeEditor) :
  Forall (fun entry => Js.count_newlines entry = 0) (provideContent_lines w e) ->
  Js.line_count (provideContent (AccessibilityHelpProvider w0 e) w) =
  match accessibilitySupport (getOptions w e) with
  | Disabled => 5
  | _ => 4
  end.
Proof.
  intros Hflat.
  change (provideContent (AccessibilityHelpProvider w0 e) w)
    with (Js.join Js.newline (provideContent_lines w e)).
  unfold Js.line_count. rewrite count_newlines_join.
  assert (Hsum : sum_list (Js.count_newlines <$> provideContent_lines w e) = 0).
  { induction Hflat as [|x l Hx _ IH]; [reflexivity|].
    rewrite fmap_cons. simpl in *. lia. }
  rewrite Hsum, provideContent_lines_length.
  destruct (accessibilitySupport (getOptions w e)); reflexivity.
Qed.

(** X11: the content of the help provider depends on the workbench only
    through the options of its editor and the keybinding of the
    toggle-tab-focus command: two states that agree on these give the same
    content, whichever editors are active or focused, whatever the hovers
    show and whenever the provider was constructed. *)
Theorem provideContent_depends_on_options_and_keybinding
    (w0 w0' w1 w2 : World) (e : ICodeEditor) :
  getOptions w1 e = getOptions w2 e ->
  lookupKeybinding w1 ToggleTabFocusModeAction_ID =
    lookupKeybinding w2 ToggleTabFocusModeAction_ID ->
  provideContent (AccessibilityHelpProvider w0 e) w1 =
  provideContent (AccessibilityHelpProvider w0' e) w2.
Proof.
  intros Ho Hk.
  change (Js.join Js.newline (provideContent_lines w1 e) =
          Js.join Js.newline (provideContent_lines w2 e)).
  unfold provideContent_lines, _descriptionForCommand.
  rewrite Ho, Hk. reflexivity.
Qed.

(** X12: the title is always the first entry of the content and the
    editor-mode message always the second, and the turn-on hint of the
    operating system is an entry of the content whenever accessibility
    support is not Enabled. *)
Theorem provideContent_fixed_entries (w : World) (e : ICodeEditor) :
  provideContent_lines w e !! 0 = Some (accessibilityHelpTitle nls)
  /\ provideContent_lines w e !! 1 =
     Some (editorModeMessage (inDiffEditor (getOptions w e))
                             (readOnly (getOptions w e)))
  /\ (accessibilitySupport (getOptions w e) <> Enabled ->
      (if isMacintosh then changeConfigToOnMac nls
       else changeConfigToOnWinLinux nls) ∈ provideContent_lines w e).
Proof.
  rewrite provideContent_lines_spec. unfold helpLines_spec.
  split; [reflexivity|]. split; [reflexivity|].
  intros Hne. simpl. unfold accessibilitySupportLines, turnOnHint.
  destruct (accessibilitySupport (getOptions w e)); [| |congruence].
  - do 2 (apply elem_of_cons; right). apply elem_of_cons. left. reflexivity.
  - do 3 (apply elem_of_cons; right). apply elem_of_cons. left. reflexivity.
Qed.

End HelpContentShape.

(** ** Instances of the further properties on the concrete workbench *)


Lemma editor_help_fulfilled_iff_witness :
  (run (editorHelpHandler (wb := Sample.workbench)) Sample.noEditorWorld).1
  = Promise (Fulfilled None).
Proof.
  apply (proj2 (editor_help_fulfilled_iff (wb := Sample.workbench)
                  Sample.noEditorWorld)).
  right. exists Sample.untitledWorld. split; [reflexivity|].
  exists 1. reflexivity.
Defined.

Lemma editor_help_rejection_witness :
  calls (run (editorHelpHandler (wb := Sample.focusing)) Sample.noEditorWorld).2
  = [CallExecuteCommand Sample.newUntitledFile]
  /\ calls (run (editorHelpHandler (wb := Sample.rejecting)) Sample.noEditorWorld).2
     = [CallExecuteCommand Sample.newUntitledFile].
Proof.
  split.
  - exact (proj1 (editor_help_rejection (wb := Sample.focusing)
                    Sample.noEditorWorld TypeError eq_refl)).
  - exact (proj1 (editor_help_rejection (wb := Sample.rejecting)
                    Sample.noEditorWorld CommandRejected eq_refl)).
Defined.

Lemma editor_help_command_only_without_editor_witness :
  (CallExecuteCommand Sample.newUntitledFile
     ∉ calls (run (editorHelpHandler (wb := Sample.workbench)) Sample.splitWorld).2)
  /\ exists rest,
       calls (run (editorHelpHandler (wb := Sample.workbench)) Sample.noEditorWorld).2
       = CallExecuteCommand Sample.newUntitledFile :: rest
       /\ forall c, CallExecuteCommand c ∉ rest.
Proof.
  split.
  - apply (proj1 (editor_help_command_only_without_editor (wb := Sample.workbench)
                    Sample.splitWorld)).
    exists 2. reflexivity.
  - apply (proj2 (editor_help_command_only_without_editor (wb := Sample.workbench)
                    Sample.noEditorWorld)).
    reflexivity.
Defined.



Lemma hover_opens_view_iff_witness :
  (run (hoverHandler (wb := Sample.workbench)) Sample.diffWorld).1 = Returns true
  /\ ~ (exists e c text,
          currentEditor Sample.focusedOnlyWorld = Some e
          /\ ModesHoverController_get Sample.focusedOnlyWorld e = Some c
          /\ getWidgetContents Sample.focusedOnlyWorld c = Some text
          /\ text <> "").
Proof.
  split.
  - apply (proj2 (hover_opens_view_iff (wb := Sample.workbench) Sample.diffWorld)).
    exists 0, 7, "const answer: number".
    repeat split; discriminate.
  - intros Hex.
    apply (proj2 (hover_opens_view_iff (wb := Sample.workbench)
                    Sample.focusedOnlyWorld)) in Hex.
    discriminate Hex.
Defined.


Lemma hover_registered_provider_witness :
  (forall later : World,
     provideContent (hoverProvider (wb := Sample.workbench) 7 "const answer: number")
       later <> "")
  /\ id (hoverProvider (wb := Sample.workbench) 7 "const answer: number") = "hover".
Proof.
  destruct (hover_registered_provider (wb := Sample.workbench) Sample.diffWorld
              (hoverProvider (wb := Sample.workbench) 7 "const answer: number"))
    as (Hne & Hid & _).
  - simpl. apply elem_of_cons. left. reflexivity.
  - split; [exact Hne | exact Hid].
Defined.

Lemma provideContent_line_count_witness :
  Js.line_count
    (provideContent
       (AccessibilityHelpProvider (wb := Sample.workbench) Sample.noEditorWorld 0)
       Sample.diffWorld) = 5
  /\ Js.line_count
       (provideContent
          (AccessibilityHelpProvider (wb := Sample.workbench) Sample.noEditorWorld 1)
          Sample.untitledWorld) = 4.
Proof.
  split.
  - apply (provideContent_line_count (wb := Sample.workbench)
             Sample.noEditorWorld Sample.diffWorld 0).
    repeat (constructor; [reflexivity|]). constructor.
  - apply (provideContent_line_count (wb := Sample.workbench)
             Sample.noEditorWorld Sample.untitledWorld 1).
    repeat (constructor; [reflexivity|]). constructor.
Defined.

Lemma provideContent_depends_on_options_and_keybinding_witness :
  provideContent
    (AccessibilityHelpProvider (wb := Sample.workbench) Sample.diffWorld 0)
    Sample.diffWorld
  = provideContent
      (AccessibilityHelpProvider (wb := Sample.workbench) Sample.splitWorld 0)
      Sample.focusedOnlyWorld.
Proof.
  apply (provideContent_depends_on_options_and_keybinding (wb := Sample.workbench)
           Sample.diffWorld Sample.splitWorld
           Sample.diffWorld Sample.focusedOnlyWorld 0);
    reflexivity.
Defined.

Lemma provideContent_fixed_entries_witness :
  "Configure the application to be optimized for usage with a Screen Reader (Control+E)."
  ∈ provideContent_lines (wb := Sample.workbench) Sample.diffWorld 0.
Proof.
  apply (proj2 (proj2 (provideContent_fixed_entries (wb := Sample.workbench)
                         Sample.diffWorld 0))).
  discriminate.
Defined.
